(** * The git-grep agent of [pr_agent/git_grep_agent.py]

    A shallow embedding of [GitGrepAgent.run_git_grep] and
    [GitGrepAgent.next_turn], with the properties of the search-result
    aggregation pipeline: parsing of the search output, first-match-wins
    deduplication by file, and extraction of top-level definitions.

    Python strings are modelled by [string]; one [ascii] stands for one code
    point below 256, so the line boundaries U+2028 and U+2029 of
    [str.splitlines] are outside of the alphabet.  Everything the agent
    obtains from its environment (the [git] subprocess, the file system,
    [ast.parse]) is read from a [World]; every effect it performs is recorded
    in a trace.  [next_turn] is a generator: the model is the generator
    driven to its end, its [yield]s being entries of the trace. *)

From Stdlib Require Import Ascii String PrimFloat.
From stdpp Require Import base option list strings gmap.

(** ** The fragment of Python's [str] the agent uses *)

Module PyStr.

(** [s.endswith(suffix)]: some tail of [s] is [suffix]. *)
Fixpoint endswith (s suffix : string) : bool :=
  String.eqb s suffix ||
  match s with
  | EmptyString => false
  | String _ s' => endswith s' suffix
  end.

(** [s.partition(sep)] for a one-character separator, [None] when [sep]
    does not occur in [s]. *)
Fixpoint partition (sep : ascii) (s : string) : option (string * string) :=
  match s with
  | EmptyString => None
  | String c s' =>
      if Ascii.eqb c sep then Some (EmptyString, s')
      else match partition sep s' with
           | Some (before, after) => Some (String c before, after)
           | None => None
           end
  end.

(** [s.split(sep, maxsplit)] for a one-character separator: at most
    [maxsplit] cuts, from the left; the remainder is the last part. *)
Fixpoint split (sep : ascii) (maxsplit : nat) (s : string) : list string :=
  match maxsplit with
  | O => [s]
  | S k =>
      match partition sep s with
      | None => [s]
      | Some (before, after) => before :: split sep k after
      end
  end.

(** The line boundaries of [str.splitlines] below code point 256:
    LF, CR, VT, FF, FS, GS, RS and NEL. *)
Definition is_linebreak (c : ascii) : bool :=
  match nat_of_ascii c with
  | 10 | 13 | 11 | 12 | 28 | 29 | 30 | 133 => true
  | _ => false
  end.

Definition CR : ascii := ascii_of_nat 13.
Definition LF : ascii := ascii_of_nat 10.

(** [cur] is the line being read, reversed.  CR LF counts as one boundary,
    and a boundary at the very end opens no further line. *)
Fixpoint splitlines_go (cur : string) (s : string) : list string :=
  match s with
  | EmptyString =>
      match cur with
      | EmptyString => []
      | _ => [String.rev cur]
      end
  | String c s' =>
      if is_linebreak c then
        match s' with
        | String c' s'' =>
            if Ascii.eqb c CR && Ascii.eqb c' LF
            then String.rev cur :: splitlines_go EmptyString s''
            else String.rev cur :: splitlines_go EmptyString s'
        | EmptyString => String.rev cur :: splitlines_go EmptyString s'
        end
      else splitlines_go (String c cur) s'
  end.

Definition splitlines (s : string) : list string :=
  splitlines_go EmptyString s.

(** [c in s] for a character. *)
Fixpoint contains (c : ascii) (s : string) : bool :=
  match s with
  | EmptyString => false
  | String c' s' => Ascii.eqb c' c || contains c s'
  end.

End PyStr.

(** ** Exceptions *)

Inductive PyExn : Type :=
| TypeError | ValueError | UnicodeDecodeError | SyntaxError
| OSError | FileNotFoundError | PermissionError | IsADirectoryError
| RecursionError | MemoryError | ValidationError
| KeyboardInterrupt | SystemExit.

(** [isinstance(e, Exception)]: what [except Exception] catches.  A bare
    [except:] catches every [PyExn]. *)
Definition is_Exception (e : PyExn) : bool :=
  match e with
  | KeyboardInterrupt | SystemExit => false
  | _ => true
  end.

(** ** Data model *)

Record CodeSection : Type := {
  search_result : string;
  file_path : string;
  included_defs : list string;
  similarity_score : float;
}.

Record CodeSections : Type := {
  sections : list CodeSection;
  search_query : string;
}.

(** Syntax trees as far as the agent inspects them: the class of a statement
    node and, for definitions, its [name]. *)
Module Ast.
#[warnings="-register-all"] Inductive stmt : Type :=
| FunctionDef (name : string) (body : list stmt)
| AsyncFunctionDef (name : string) (body : list stmt)
| ClassDef (name : string) (body : list stmt)
| Compound (body orelse : list stmt)
| Simple.
End Ast.

(** Events of the conversational layer ([agentic.events]) that a turn
    yields, with their arguments in the order of the constructors' parameters:
    [next_turn] passes the query where [PromptStarted] takes the agent. *)
Inductive Event : Type :=
| PromptStarted (agent : string) (payload : gmap string string)
| TurnEnd (agent : string) (messages : list (gmap string CodeSections)).

Inductive Request : Type :=
| Str (s : string)
| Prompt (payload : string).

(** ** The environment and the effects of a turn *)

Record CompletedProcess : Type := {
  returncode : Z;
  stdout : string;
  stderr : string;
}.

Record World : Type := {
  (** [subprocess.run(args, capture_output=True, text=True, check=False)] *)
  subprocess_run : list string → PyExn + CompletedProcess;
  (** [open(path)] followed by [read()] *)
  open_read : string → PyExn + string;
  ast_parse : string → PyExn + list Ast.stmt;
}.

Inductive IOEvent : Type :=
| EvRun (args : list string)
| EvPrint (msg : string) (e : PyExn)
| EvOpen (path : string)
| EvParse (source : string)
| EvYield (ev : Event).

(** A computation performs effects, then returns or raises. *)
Definition M (A : Type) : Type := list IOEvent * (PyExn + A).

Definition raise {A} (e : PyExn) : M A := ([], inl e).
Definition tell (ev : IOEvent) : M unit := ([ev], inr tt).
Definition lift {A} (r : PyExn + A) : M A := ([], r).

#[export] Instance M_ret : MRet M := λ A a, ([], inr a).
#[export] Instance M_bind : MBind M := λ A B f m,
  match m with
  | (t, inl e) => (t, inl e)
  | (t, inr a) => let '(t', r) := f a in (t ++ t', r)
  end.

(** [try: m  except <catches>: handler] *)
Definition try_except {A} (m : M A) (catches : PyExn → bool)
    (handler : PyExn → M A) : M A :=
  match m with
  | (t, inl e) =>
      if catches e then let '(t', r) := handler e in (t ++ t', r)
      else (t, inl e)
  | (t, inr a) => (t, inr a)
  end.

(** [for x in xs: s = body(s, x)] *)
Fixpoint for_each {A S} (body : S → A → M S) (xs : list A) (s : S) : M S :=
  match xs with
  | [] => mret s
  | x :: xs' => s' ← body s x; for_each body xs' s'
  end.

Definition trace {A} (m : M A) : list IOEvent := m.1.
Definition outcome {A} (m : M A) : PyExn + A := m.2.

(** ** The agent *)

Record GitGrepAgent : Type := {
  name : string;
  welcome : string;
}.

Definition default_agent : GitGrepAgent := {|
  name := "Git-Grep Agent";
  welcome := "I am the Git Grep Agent. Please give me a search query (function name,class name, etc.) and I'll return exact matches from the codebase.";
|}.

(** Python values that meet in the comparisons of [next_turn]. *)
Inductive PyObj : Type :=
| PStr (s : string)
| PSection (sec : CodeSection).

Definition CodeSection_eqb (a b : CodeSection) : bool :=
  String.eqb (search_result a) (search_result b)
  && String.eqb (file_path a) (file_path b)
  && bool_decide (included_defs a = included_defs b)
  && PrimFloat.eqb (similarity_score a) (similarity_score b).

(** [x == y]: strings compare by contents, models of one class by their
    fields; between a string and a model neither side's [__eq__] applies and
    the comparison falls back to identity, which fails. *)
Definition py_eq (x y : PyObj) : bool :=
  match x, y with
  | PStr a, PStr b => String.eqb a b
  | PSection a, PSection b => CodeSection_eqb a b
  | _, _ => false
  end.

(** [x in l] for a list [l]. *)
Definition py_in (x : PyObj) (l : list PyObj) : bool := existsb (py_eq x) l.

(** The constructor of the pydantic model [CodeSections]: the field
    [search_query: str] does not validate [None]. *)
Definition CodeSections_init (secs : list CodeSection)
    (query : option string) : M CodeSections :=
  match query with
  | Some q => mret {| sections := secs; search_query := q |}
  | None => raise ValidationError
  end.

Section Agent.

Variable w : World.

(** [subprocess.run] on an argument list; an argument that is [None] is a
    [TypeError]. *)
Definition run_subprocess (args : list (option string)) : M CompletedProcess :=
  match mapM id args with
  | None => raise TypeError
  | Some argv => tell (EvRun argv);; lift (subprocess_run w argv)
  end.

(** The body of the loop over the lines of the search output. *)
Definition scan_line (matches : list (string * string)) (line : string)
    : M (list (string * string)) :=
  if String.eqb line "" then mret matches
  else
    let parts := PyStr.split ":" 2 line in
    if 3 <=? length parts then
      match parts with
      | [path; line_number; matched_line] =>
          mret (matches ++ [(path, matched_line)])
      | _ => raise ValueError
      end
    else mret matches.

(** [query] is [None] when the caller has no query to pass. *)
Definition run_git_grep (self : GitGrepAgent) (query : option string)
    : M (list (string * string)) :=
  try_except
    (result ← run_subprocess [Some "git"; Some "grep"; Some "-n"; query];
     for_each scan_line (PyStr.splitlines (stdout result)) [])
    is_Exception
    (λ e, tell (EvPrint "Error running git grep: " e);; mret []).

Definition is_def (n : Ast.stmt) : bool :=
  match n with
  | Ast.ClassDef _ _ | Ast.FunctionDef _ _ => true
  | _ => false
  end.

(** [n.name], read only where [is_def n] holds. *)
Definition node_name (n : Ast.stmt) : option string :=
  match n with
  | Ast.FunctionDef nm _ | Ast.AsyncFunctionDef nm _ | Ast.ClassDef nm _ =>
      Some nm
  | _ => None
  end.

(** [[n.name for n in body if isinstance(n, ast.ClassDef) or
    isinstance(n, ast.FunctionDef)]] *)
Definition included_names (body : list Ast.stmt) : list string :=
  omap node_name (filter (λ n, is_def n) body).

(** The [try] block of [next_turn] with its bare [except]. *)
Definition extract_defs (path : string) : M (list string) :=
  try_except
    (if PyStr.endswith path ".py" then
       tell (EvOpen path);;
       source ← lift (open_read w path);
       tell (EvParse source);;
       body ← lift (ast_parse w source);
       mret (included_names body)
     else mret [])
    (λ _, true)
    (λ _, mret []).

(** The body of the loop over the grep matches; [path] and [defs] are the
    source's locals [file_path] and [included_defs]. *)
Definition add_match (allSections : CodeSections) (m : string * string)
    : M CodeSections :=
  let '(path, matched_line) := m in
  if negb (py_in (PStr path) (PSection <$> sections allSections)) then
    defs ← extract_defs path;
    if negb (existsb (λ sec, String.eqb (file_path sec) path)
               (sections allSections))
    then mret {| sections := sections allSections ++
                   [{| search_result := matched_line;
                       file_path := path;
                       included_defs := defs;
                       similarity_score := 1%float |}];
                 search_query := search_query allSections |}
    else mret allSections
  else mret allSections.

(** A turn.  [request_context] is a dictionary with string values, its
    [get] is the lookup; [query'] is the source's local [search_query]. *)
Definition next_turn (self : GitGrepAgent) (request : Request)
    (request_context : gmap string string) : M unit :=
  let query := match request with Prompt payload => payload | Str s => s end in
  tell (EvYield (PromptStarted query {[ "query" := query ]}));;
  let query' := request_context !! "query" in
  grep_results ← run_git_grep self query';
  allSections ← CodeSections_init [] query';
  allSections ← for_each add_match grep_results allSections;
  tell (EvYield (TurnEnd (name self) [ {[ "content" := allSections ]} ])).

End Agent.

(** ** Observations and specification-side notions *)

(** The query a turn is given: the request itself or the payload of a
    prompt. *)
Definition input_query (request : Request) : string :=
  match request with Prompt payload => payload | Str s => s end.

(** The collection a turn hands over: the content of the [TurnEnd] it yields
    last, provided the generator finished without raising. *)
Definition turn_collection (m : M unit) : option CodeSections :=
  match outcome m, last (trace m) with
  | inr _, Some (EvYield (TurnEnd _ [msg])) => msg !! "content"
  | _, _ => None
  end.

(** The files a computation opened, in order. *)
Definition opens (t : list IOEvent) : list string :=
  omap (λ ev, match ev with EvOpen p => Some p | _ => None end) t.

(** The sources a computation handed to the parser, in order. *)
Definition parses (t : list IOEvent) : list string :=
  omap (λ ev, match ev with EvParse src => Some src | _ => None end) t.

Definition returned {A} (default : A) (m : M A) : A :=
  match outcome m with inr a => a | inl _ => default end.

(** What the extraction step returns for a path. *)
Definition defs_of (w : World) (path : string) : list string :=
  returned [] (extract_defs w path).

Definition has_path (path : string) (secs : list CodeSection) : bool :=
  existsb (λ sec, String.eqb (file_path sec) path) secs.

(** The section a match gives rise to when its file has none yet. *)
Definition new_section (w : World) (m : string * string) : CodeSection :=
  {| search_result := m.2; file_path := m.1;
     included_defs := defs_of w m.1; similarity_score := 1%float |}.

(** The effect of one match on the sections, as a pure function. *)
Definition add_section (w : World) (secs : list CodeSection)
    (m : string * string) : list CodeSection :=
  if has_path m.1 secs then secs else secs ++ [new_section w m].

(** The matches a line of search output contributes. *)
Definition matches_of_line (line : string) : list (string * string) :=
  match PyStr.split ":" 2 line with
  | [path; _; text] => [(path, text)]
  | _ => []
  end.

Definition grep_args (q : string) : list string := ["git"; "grep"; "-n"; q].

(** The search could not be invoked: no query to pass, an exception of the
    subprocess call, or a nonzero exit with nothing on standard output. *)
Definition invocation_fails (w : World) (query : option string) : bool :=
  match query with
  | None => true
  | Some q =>
      match subprocess_run w (grep_args q) with
      | inl e => is_Exception e
      | inr r => negb (returncode r =? 0)%Z && String.eqb (stdout r) ""
      end
  end.

(** The file is not a supported source file, cannot be read, or does not
    parse. *)
Definition extraction_fails (w : World) (path : string) : bool :=
  if PyStr.endswith path ".py" then
    match open_read w path with
    | inl _ => true
    | inr source =>
        match ast_parse w source with inl _ => true | inr _ => false end
    end
  else true.

(** Following the specification's words: the names of the top-level
    definitions of a module, that is of the functions ([def] and
    [async def]) and classes declared directly in its body, in source order.
    Statements nested in another construct are not looked at. *)
Fixpoint top_level_definitions (body : list Ast.stmt) : list string :=
  match body with
  | [] => []
  | Ast.FunctionDef nm _ :: rest
  | Ast.AsyncFunctionDef nm _ :: rest
  | Ast.ClassDef nm _ :: rest => nm :: top_level_definitions rest
  | _ :: rest => top_level_definitions rest
  end.

Definition is_async (n : Ast.stmt) : bool :=
  match n with Ast.AsyncFunctionDef _ _ => true | _ => false end.

(** Two worlds agree on everything but the contents of one file. *)
Definition same_except_file (path : string) (w w' : World) : Prop :=
  (∀ args, subprocess_run w' args = subprocess_run w args)
  ∧ (∀ p, p ≠ path → open_read w' p = open_read w p)
  ∧ (∀ source, ast_parse w' source = ast_parse w source).

(** ** Sample worlds *)

Definition nl : string := String PyStr.LF "".

(** A working tree with a Python file [a.py], a Python file [bad.py] that
    does not parse, and a text file [b.txt]; [gone.py] cannot be opened. *)
Definition sample_open (path : string) : PyExn + string :=
  if String.eqb path "a.py" then inr "source of a.py"
  else if String.eqb path "bad.py" then inr "def ("
  else if String.eqb path "b.txt" then inr "see f: it"
  else inl FileNotFoundError.

(** The module body of [a.py]: [def f] with a nested [def g], a simple
    statement, [async def h], and [class C] with a method [m]. *)
Definition sample_body : list Ast.stmt :=
  [Ast.FunctionDef "f" [Ast.FunctionDef "g" []];
   Ast.Simple;
   Ast.AsyncFunctionDef "h" [];
   Ast.ClassDef "C" [Ast.FunctionDef "m" []]].

Definition sample_parse (source : string) : PyExn + list Ast.stmt :=
  if String.eqb source "source of a.py" then
    inr [Ast.FunctionDef "f" [Ast.FunctionDef "g" []];
         Ast.Simple;
         Ast.AsyncFunctionDef "h" [];
         Ast.ClassDef "C" [Ast.FunctionDef "m" []]]
  else inl SyntaxError.

Definition sample_world (run : PyExn + CompletedProcess) : World :=
  {| subprocess_run := λ _, run;
     open_read := sample_open;
     ast_parse := sample_parse |}.

Definition completed (code : Z) (out : string) : PyExn + CompletedProcess :=
  inr {| returncode := code; stdout := out; stderr := "" |}.

(** The search reports two lines of [a.py], with a line of [b.txt] between. *)
Definition world_two_matches : World :=
  sample_world (completed 0
    ("a.py:1:def f(): pass" +:+ nl +:+
     "b.txt:3:see f: it" +:+ nl +:+
     "a.py:2:f()" +:+ nl)).

(** The search reports a file that does not parse, then [a.py]. *)
Definition world_bad_file : World :=
  sample_world (completed 0
    ("bad.py:1:def (" +:+ nl +:+ "a.py:1:def f(): pass" +:+ nl)).

(** [world_bad_file] after [bad.py] got the contents of [a.py]. *)
Definition world_repaired_file : World :=
  {| subprocess_run := subprocess_run world_bad_file;
     open_read := λ path,
       if String.eqb path "bad.py" then inr "source of a.py"
       else sample_open path;
     ast_parse := sample_parse |}.

(** The search finds nothing: exit status 1, empty output. *)
Definition world_no_matches : World := sample_world (completed 1 "").

(** There is no [git] binary. *)
Definition world_no_git : World := sample_world (inl FileNotFoundError).

Definition section_a : CodeSection :=
  {| search_result := "def f(): pass"; file_path := "a.py";
     included_defs := ["f"; "C"]; similarity_score := 1%float |}.

Definition section_b : CodeSection :=
  {| search_result := "see f: it"; file_path := "b.txt";
     included_defs := []; similarity_score := 1%float |}.

Definition section_bad : CodeSection :=
  {| search_result := "def ("; file_path := "bad.py";
     included_defs := []; similarity_score := 1%float |}.

(** ** Further observations *)

(** The argument lists of the calls of [subprocess.run] a computation made
    with an argument list of strings. *)
Definition runs (t : list IOEvent) : list (list string) :=
  omap (λ ev, match ev with EvRun args => Some args | _ => None end) t.

(** The exceptions a computation reported on standard output. *)
Definition prints (t : list IOEvent) : list PyExn :=
  omap (λ ev, match ev with EvPrint _ e => Some e | _ => None end) t.

(** The events a generator yielded. *)
Definition yields (t : list IOEvent) : list Event :=
  omap (λ ev, match ev with EvYield e => Some e | _ => None end) t.

(** The elements of a list in the order of their first occurrence. *)
Fixpoint dedup_first (l : list string) : list string :=
  match l with
  | [] => []
  | x :: l' => x :: filter (λ y, y ≠ x) (dedup_first l')
  end.

(** The string holds a line boundary. *)
Fixpoint has_linebreak (s : string) : bool :=
  match s with
  | EmptyString => false
  | String c s' => PyStr.is_linebreak c || has_linebreak s'
  end.

(** The user interrupts the search. *)
Definition world_interrupted : World := sample_world (inl KeyboardInterrupt).

(** ** Properties of the string operations *)

Section Strings.

Implicit Types (s a b : string) (sep c : ascii).

Lemma append_cons c s a : String c s +:+ a = String c (s +:+ a).
Proof. reflexivity. Qed.

Lemma append_nil_l s : "" +:+ s = s.
Proof. reflexivity. Qed.

Lemma endswith_spec s suffix :
  PyStr.endswith s suffix = true ↔ ∃ front, s = front +:+ suffix.
Proof.
  induction s as [|c s IH]; cbn [PyStr.endswith].
  - rewrite orb_false_r, String.eqb_eq. split.
    + intros <-. by exists "".
    + intros [[|c front] H]; [done|]. rewrite append_cons in H. discriminate.
  - rewrite orb_true_iff, String.eqb_eq, IH. split.
    + intros [<-|[front ->]]; [by exists ""|by exists (String c front)].
    + intros [[|c' front] H]; [by left|].
      rewrite append_cons in H. injection H as -> ->. right. by exists front.
Qed.

Lemma partition_Some sep s a b :
  PyStr.partition sep s = Some (a, b) →
  s = a +:+ String sep b ∧ PyStr.contains sep a = false.
Proof.
  revert a. induction s as [|c s IH]; intros a; simpl; [done|].
  destruct (Ascii.eqb_spec c sep) as [->|Hne].
  - by intros [= <- <-].
  - destruct (PyStr.partition sep s) as [[a' b']|]; [|done].
    intros [= <- <-]. destruct (IH a' eq_refl) as [-> Ha']. simpl.
    split; [done|]. rewrite Ha', orb_false_r. by apply Ascii.eqb_neq.
Qed.

Lemma partition_app sep a b :
  PyStr.contains sep a = false →
  PyStr.partition sep (a +:+ String sep b) = Some (a, b).
Proof.
  induction a as [|c a IH]; simpl.
  - intros _. by rewrite Ascii.eqb_refl.
  - intros [Hc Ha]%orb_false_iff. by rewrite Hc, IH.
Qed.

Lemma split_length sep k s : length (PyStr.split sep k s) ≤ S k.
Proof.
  revert s. induction k as [|k IH]; intros s; simpl; [lia|].
  destruct (PyStr.partition sep s) as [[a b]|]; simpl; [|lia].
  specialize (IH b). lia.
Qed.

Lemma split_three sep a b rest :
  PyStr.contains sep a = false → PyStr.contains sep b = false →
  PyStr.split sep 2 (a +:+ String sep (b +:+ String sep rest)) = [a; b; rest].
Proof.
  intros Ha Hb. simpl.
  by rewrite (partition_app _ _ _ Ha), (partition_app _ _ _ Hb).
Qed.

End Strings.

(** ** Laws of the effect monad *)

Section Monad.

Context {A B : Type}.

Lemma bind_inr (t : list IOEvent) (a : A) (f : A → M B) :
  ((t, inr a) : M A) ≫= f = (t ++ trace (f a), outcome (f a)).
Proof. unfold mbind, M_bind, trace, outcome. by destruct (f a). Qed.

Lemma bind_inl (t : list IOEvent) (e : PyExn) (f : A → M B) :
  ((t, inl e) : M A) ≫= f = (t, inl e).
Proof. reflexivity. Qed.

Lemma bind_mret (a : A) (f : A → M B) : mret a ≫= f = f a.
Proof. unfold mret, M_ret. rewrite bind_inr. by destruct (f a). Qed.

End Monad.

Lemma M_eta {A} (m : M A) : m = (trace m, outcome m).
Proof. by destruct m. Qed.

(** ** The query executor *)

Section Executor.

Variable w : World.

Lemma scan_line_spec matches line :
  scan_line matches line = mret (matches ++ matches_of_line line).
Proof.
  unfold scan_line, matches_of_line.
  destruct (String.eqb_spec line "") as [->|_].
  - simpl. by rewrite app_nil_r.
  - pose proof (split_length ":" 2 line) as Hlen.
    destruct (PyStr.split ":" 2 line) as [|a [|b [|c [|d l]]]];
      simpl in *; rewrite ?app_nil_r; try done; lia.
Qed.

Lemma scan_lines_spec lines matches :
  for_each scan_line lines matches
  = mret (matches ++ (lines ≫= matches_of_line)).
Proof.
  revert matches. induction lines as [|line lines IH]; intros matches; simpl.
  - by rewrite app_nil_r.
  - rewrite scan_line_spec, bind_mret, IH. by rewrite <- app_assoc.
Qed.

Lemma run_git_grep_completed self q r :
  subprocess_run w (grep_args q) = inr r →
  run_git_grep w self (Some q)
  = ([EvRun (grep_args q)],
     inr (PyStr.splitlines (stdout r) ≫= matches_of_line)).
Proof.
  intros Hr. unfold run_git_grep, run_subprocess. simpl.
  fold (grep_args q). rewrite Hr. simpl.
  rewrite scan_lines_spec. reflexivity.
Qed.

Lemma run_git_grep_caught self q e :
  subprocess_run w (grep_args q) = inl e → is_Exception e = true →
  run_git_grep w self (Some q)
  = ([EvRun (grep_args q); EvPrint "Error running git grep: " e], inr []).
Proof.
  intros Hr He. unfold run_git_grep, run_subprocess. simpl.
  fold (grep_args q). rewrite Hr. simpl. by rewrite He.
Qed.

Lemma run_git_grep_uncaught self q e :
  subprocess_run w (grep_args q) = inl e → is_Exception e = false →
  run_git_grep w self (Some q) = ([EvRun (grep_args q)], inl e).
Proof.
  intros Hr He. unfold run_git_grep, run_subprocess. simpl.
  fold (grep_args q). rewrite Hr. simpl. by rewrite He.
Qed.

(** What [run_git_grep] lets through is no [Exception]. *)
Lemma run_git_grep_raises self query e :
  outcome (run_git_grep w self query) = inl e → is_Exception e = false.
Proof.
  destruct query as [q|]; [|done].
  destruct (subprocess_run w (grep_args q)) as [e'|r] eqn:Hrun.
  - destruct (is_Exception e') eqn:He.
    + by rewrite (run_git_grep_caught self q e' Hrun He).
    + rewrite (run_git_grep_uncaught self q e' Hrun He). by intros [= <-].
  - by rewrite (run_git_grep_completed self q r Hrun).
Qed.

Lemma run_git_grep_no_query self :
  run_git_grep w self None
  = ([EvPrint "Error running git grep: " TypeError], inr []).
Proof. reflexivity. Qed.

End Executor.

(** ** The symbol extractor and the aggregation loop *)

Section Aggregator.

Variable w : World.

Lemma extract_defs_returns path :
  outcome (extract_defs w path) = inr (defs_of w path).
Proof.
  unfold defs_of, returned.
  enough (∃ names, outcome (extract_defs w path) = inr names) as [? ->]; [done|].
  unfold extract_defs.
  destruct (PyStr.endswith path ".py"); [|by eexists].
  simpl. destruct (open_read w path) as [?|source]; simpl; [by eexists|].
  destruct (ast_parse w source); simpl; by eexists.
Qed.

Lemma extract_defs_unsupported path :
  PyStr.endswith path ".py" = false → extract_defs w path = ([], inr []).
Proof. intros H. unfold extract_defs. by rewrite H. Qed.

Lemma extract_defs_parsed path source body :
  PyStr.endswith path ".py" = true →
  open_read w path = inr source → ast_parse w source = inr body →
  extract_defs w path
  = ([EvOpen path; EvParse source], inr (included_names body)).
Proof. intros H1 H2 H3. unfold extract_defs. rewrite H1. simpl. by rewrite H2, H3. Qed.

Lemma extract_defs_failed path :
  extraction_fails w path = true → defs_of w path = [].
Proof.
  unfold extraction_fails, defs_of, returned, extract_defs.
  destruct (PyStr.endswith path ".py"); [|done].
  simpl. destruct (open_read w path) as [?|source]; simpl; [done|].
  by destruct (ast_parse w source).
Qed.

Lemma extract_defs_opens path :
  opens (trace (extract_defs w path))
  = if PyStr.endswith path ".py" then [path] else [].
Proof.
  unfold extract_defs.
  destruct (PyStr.endswith path ".py"); [|done].
  simpl. destruct (open_read w path) as [?|source]; simpl; [done|].
  by destruct (ast_parse w source).
Qed.

(** The membership test of a path among the section records never succeeds. *)
Lemma py_in_str_sections path secs :
  py_in (PStr path) (PSection <$> secs) = false.
Proof. unfold py_in. induction secs as [|sec secs IH]; [done|apply IH]. Qed.

Lemma add_match_spec c m :
  add_match w c m
  = (trace (extract_defs w m.1),
     inr {| sections := add_section w (sections c) m;
            search_query := search_query c |}).
Proof.
  destruct m as [path line]. unfold add_match, add_section, has_path.
  unfold new_section. rewrite py_in_str_sections. simpl.
  rewrite (M_eta (extract_defs w path)), extract_defs_returns, bind_inr.
  simpl. destruct (existsb _ (sections c)); simpl.
  - rewrite app_nil_r. by destruct c.
  - by rewrite app_nil_r.
Qed.

Lemma collect_spec ms c :
  for_each (add_match w) ms c
  = (ms ≫= (λ m, trace (extract_defs w m.1)),
     inr {| sections := fold_left (add_section w) ms (sections c);
            search_query := search_query c |}).
Proof.
  revert c. induction ms as [|m ms IH]; intros c; simpl.
  - by destruct c.
  - rewrite add_match_spec, bind_inr, IH. reflexivity.
Qed.

Lemma opens_app t1 t2 : opens (t1 ++ t2) = opens t1 ++ opens t2.
Proof. apply omap_app. Qed.

Lemma collect_opens ms c :
  opens (trace (for_each (add_match w) ms c))
  = filter (λ p, PyStr.endswith p ".py" = true) ms.*1.
Proof.
  rewrite collect_spec. unfold trace at 1. cbn [fst].
  induction ms as [|[path line] ms IH]; [done|].
  rewrite bind_cons, opens_app, IH. cbn [fst]. rewrite extract_defs_opens.
  rewrite fmap_cons, filter_cons. cbn [fst].
  destruct (PyStr.endswith path ".py"); by case_decide.
Qed.

Lemma has_path_spec path secs :
  has_path path secs = true ↔ path ∈ file_path <$> secs.
Proof.
  unfold has_path. rewrite existsb_exists, list_elem_of_fmap.
  split; intros (sec & H1 & H2).
  - apply String.eqb_eq in H2. exists sec. by apply list_elem_of_In in H1.
  - exists sec. apply list_elem_of_In in H2. split; [done|]. by apply String.eqb_eq.
Qed.

Lemma has_path_false path secs :
  has_path path secs = false ↔ path ∉ file_path <$> secs.
Proof. rewrite <- has_path_spec. by destruct (has_path path secs). Qed.

Lemma add_section_paths secs m :
  file_path <$> add_section w secs m
  = if has_path m.1 secs then file_path <$> secs
    else (file_path <$> secs) ++ [m.1].
Proof.
  unfold add_section. destruct (has_path m.1 secs); [done|].
  by rewrite fmap_app.
Qed.

Lemma add_section_NoDup secs m :
  NoDup (file_path <$> secs) → NoDup (file_path <$> add_section w secs m).
Proof.
  intros Hnd. rewrite add_section_paths.
  destruct (has_path m.1 secs) eqn:Hin; [done|].
  apply has_path_false in Hin. apply NoDup_app. split_and!; [done| |].
  - intros p Hp ->%list_elem_of_singleton. done.
  - apply NoDup_singleton.
Qed.

Lemma aggregate_NoDup ms secs :
  NoDup (file_path <$> secs) →
  NoDup (file_path <$> fold_left (add_section w) ms secs).
Proof.
  revert secs. induction ms as [|m ms IH]; intros secs Hnd; [done|].
  simpl. by apply IH, add_section_NoDup.
Qed.

Lemma add_section_prefix secs m : secs `prefix_of` add_section w secs m.
Proof.
  unfold add_section. destruct (has_path m.1 secs); [done|].
  by apply prefix_app_r.
Qed.

Lemma aggregate_prefix ms secs :
  secs `prefix_of` fold_left (add_section w) ms secs.
Proof.
  revert secs. induction ms as [|m ms IH]; intros secs; [done|].
  simpl. etrans; [apply add_section_prefix|apply IH].
Qed.

Lemma aggregate_paths ms secs p :
  p ∈ file_path <$> fold_left (add_section w) ms secs
  ↔ p ∈ file_path <$> secs ∨ p ∈ ms.*1.
Proof.
  revert secs. induction ms as [|m ms IH]; intros secs; simpl.
  - rewrite elem_of_nil. tauto.
  - rewrite IH, add_section_paths, elem_of_cons.
    destruct (has_path m.1 secs) eqn:Hin.
    + apply has_path_spec in Hin. split; [tauto|].
      intros [?|[->|?]]; tauto.
    + rewrite elem_of_app, list_elem_of_singleton. tauto.
Qed.

(** Where the sections of the result come from. *)
Lemma aggregate_provenance ms secs sec :
  sec ∈ fold_left (add_section w) ms secs →
  sec ∈ secs ∨ ∃ m, m ∈ ms ∧ sec = new_section w m.
Proof.
  revert secs. induction ms as [|m ms IH]; intros secs; simpl; [by left|].
  intros [Hin|(m' & ? & ->)]%IH.
  - unfold add_section in Hin. destruct (has_path m.1 secs); [by left|].
    apply elem_of_app in Hin as [?| ->%list_elem_of_singleton]; [by left|].
    right. exists m. split; [left|done].
  - right. exists m'. split; [by right|done].
Qed.

Lemma aggregate_first_match pre path line secs :
  path ∉ file_path <$> secs → path ∉ pre.*1 →
  fold_left (add_section w) (pre ++ [(path, line)]) secs
  = fold_left (add_section w) pre secs ++ [new_section w (path, line)].
Proof.
  intros H1 H2. rewrite fold_left_app. simpl. unfold add_section at 1.
  cbn [fst]. replace (has_path path _) with false; [done|].
  symmetry. apply has_path_false. rewrite aggregate_paths. tauto.
Qed.

Lemma NoDup_fmap_agree {X Y} (f : X → Y) (l : list X) x y :
  NoDup (f <$> l) → x ∈ l → y ∈ l → f x = f y → x = y.
Proof.
  induction l as [|z l IH]; [by intros _ ?%elem_of_nil|].
  rewrite fmap_cons, NoDup_cons, !elem_of_cons.
  intros [Hz Hnd] [->|Hx] [->|Hy] Hf; [done| | |by apply IH].
  - destruct Hz. rewrite Hf. by apply list_elem_of_fmap_2.
  - destruct Hz. rewrite <- Hf. by apply list_elem_of_fmap_2.
Qed.

End Aggregator.

(** ** A turn as a whole *)

Section Turn.

Variable w : World.

Lemma next_turn_unfold self request ctx q ms :
  ctx !! "query" = Some q →
  outcome (run_git_grep w self (Some q)) = inr ms →
  ∃ t, next_turn w self request ctx
       = (t ++ [EvYield (TurnEnd (name self)
                  [ {[ "content" :=
                       {| sections := fold_left (add_section w) ms [];
                          search_query := q |} ]} ])],
          inr ()).
Proof.
  intros Hq Hms. unfold next_turn, tell, CodeSections_init. rewrite Hq.
  rewrite bind_inr, (M_eta (run_git_grep w self (Some q))), Hms.
  rewrite bind_inr, bind_mret, collect_spec, bind_inr.
  unfold trace, outcome. cbn [fst snd sections search_query].
  eexists. rewrite !app_assoc. reflexivity.
Qed.

Lemma next_turn_returns self request ctx q ms :
  ctx !! "query" = Some q →
  outcome (run_git_grep w self (Some q)) = inr ms →
  outcome (next_turn w self request ctx) = inr ()
  ∧ turn_collection (next_turn w self request ctx)
    = Some {| sections := fold_left (add_section w) ms [];
              search_query := q |}.
Proof.
  intros Hq Hms.
  destruct (next_turn_unfold self request ctx q ms Hq Hms) as [t ->].
  split; [done|]. unfold turn_collection, trace, outcome. cbn [fst snd].
  rewrite last_snoc. apply lookup_singleton_eq.
Qed.

Lemma next_turn_inv self request ctx c :
  turn_collection (next_turn w self request ctx) = Some c →
  ∃ q ms, ctx !! "query" = Some q
    ∧ outcome (run_git_grep w self (Some q)) = inr ms
    ∧ c = {| sections := fold_left (add_section w) ms [];
             search_query := q |}.
Proof.
  destruct (ctx !! "query") as [q|] eqn:Hq.
  - destruct (outcome (run_git_grep w self (Some q))) as [e|ms] eqn:Hms.
    + unfold turn_collection, next_turn, tell. rewrite Hq.
      rewrite bind_inr, (M_eta (run_git_grep w self (Some q))), Hms.
      by rewrite bind_inl.
    + destruct (next_turn_returns self request ctx q ms Hq Hms) as [_ ->].
      intros [= <-]. by exists q, ms.
  - unfold turn_collection, next_turn, tell. rewrite Hq.
    by rewrite run_git_grep_no_query.
Qed.

End Turn.

(** ** Sanity checks on the sample worlds *)

Example splitlines_sample :
  PyStr.splitlines ("a" +:+ nl +:+ nl +:+ "b" +:+ String PyStr.CR nl +:+ "c" +:+ nl)
  = ["a"; ""; "b"; "c"].
Proof. reflexivity. Qed.

Example run_git_grep_sample :
  outcome (run_git_grep world_two_matches default_agent (Some "f"))
  = inr [("a.py", "def f(): pass"); ("b.txt", "see f: it"); ("a.py", "f()")].
Proof. reflexivity. Qed.

Example next_turn_sample :
  turn_collection
    (next_turn world_two_matches default_agent (Str "f") {[ "query" := "f" ]})
  = Some {| sections := [section_a; section_b]; search_query := "f" |}.
Proof. vm_compute. reflexivity. Qed.

Example next_turn_bad_file :
  turn_collection
    (next_turn world_bad_file default_agent (Str "def") {[ "query" := "def" ]})
  = Some {| sections := [section_bad; section_a]; search_query := "def" |}.
Proof. vm_compute. reflexivity. Qed.

(** Without a ["query"] entry in the request context the model of the
    result cannot be built and the turn raises. *)
Example next_turn_without_context_query :
  outcome (next_turn world_two_matches default_agent (Str "f") ∅)
  = inl ValidationError.
Proof. vm_compute. reflexivity. Qed.

(** ** Auxiliary facts for the claims *)

Lemma NoDup_fmap_filter_length {X Y} `{EqDecision Y} (f : X → Y) (l : list X) y :
  NoDup (f <$> l) → length (filter (λ x, f x = y) l) ≤ 1.
Proof.
  induction l as [|x l IH]; [simpl; lia|].
  rewrite fmap_cons, NoDup_cons, filter_cons. intros [Hx Hnd].
  case_decide as Hfx; [|by apply IH]. subst y.
  enough (filter (λ x0, f x0 = f x) l = []) as ->; [simpl; lia|].
  apply elem_of_nil_inv. intros z [Hz ?]%list_elem_of_filter.
  apply Hx. rewrite <- Hz. by apply list_elem_of_fmap_2.
Qed.

Lemma included_names_cons n body :
  included_names (n :: body)
  = match n with
    | Ast.FunctionDef nm _ | Ast.ClassDef nm _ => nm :: included_names body
    | _ => included_names body
    end.
Proof. by destruct n. Qed.

Lemma included_names_app front back :
  included_names (front ++ back) = included_names front ++ included_names back.
Proof. unfold included_names. by rewrite filter_app, omap_app. Qed.

Lemma elem_of_included_names nm body :
  nm ∈ included_names body
  ↔ ∃ inner, Ast.FunctionDef nm inner ∈ body ∨ Ast.ClassDef nm inner ∈ body.
Proof.
  induction body as [|n body IH].
  - split; [by intros ?%elem_of_nil|].
    by intros [inner [?%elem_of_nil|?%elem_of_nil]].
  - rewrite included_names_cons. setoid_rewrite elem_of_cons.
    destruct n as [nm' i|nm' i|nm' i|b o|]; rewrite ?elem_of_cons, IH;
      (split;
       [ intros H; repeat destruct H as [H|H]; first
           [ subst; eexists; left; left; reflexivity
           | subst; eexists; right; left; reflexivity
           | destruct H as [inner [H|H]]; exists inner; tauto ]
       | intros [inner [[H|H]|[H|H]]]; first
           [ discriminate H | injection H as -> ->; by left
           | right; exists inner; tauto | exists inner; tauto ] ]).
Qed.

Section OtherFiles.

Variables (w w' : World) (path : string).
Hypothesis Hsame : same_except_file path w w'.

Lemma run_git_grep_same self query :
  run_git_grep w' self query = run_git_grep w self query.
Proof.
  destruct Hsame as (Hrun & _ & _). unfold run_git_grep, run_subprocess.
  destruct query as [q|]; [|done]. simpl. by rewrite Hrun.
Qed.

Lemma extract_defs_same p : p ≠ path → extract_defs w' p = extract_defs w p.
Proof.
  destruct Hsame as (_ & Hopen & Hparse). intros Hp. unfold extract_defs.
  destruct (PyStr.endswith p ".py"); [|done].
  rewrite (Hopen p Hp). simpl.
  destruct (open_read w p) as [?|source]; [done|]. simpl.
  by rewrite Hparse.
Qed.

Lemma has_path_same p (secs secs' : list CodeSection) :
  file_path <$> secs = file_path <$> secs' →
  has_path p secs = has_path p secs'.
Proof.
  intros Heq.
  destruct (has_path p secs) eqn:H1, (has_path p secs') eqn:H2; try done.
  - apply has_path_spec in H1. rewrite Heq in H1.
    apply has_path_spec in H1. congruence.
  - apply has_path_spec in H2. rewrite <- Heq in H2.
    apply has_path_spec in H2. congruence.
Qed.

Lemma aggregate_same ms secs secs' :
  file_path <$> secs = file_path <$> secs' →
  filter (λ sec, file_path sec ≠ path) secs'
  = filter (λ sec, file_path sec ≠ path) secs →
  filter (λ sec, file_path sec ≠ path) (fold_left (add_section w') ms secs')
  = filter (λ sec, file_path sec ≠ path) (fold_left (add_section w) ms secs).
Proof.
  revert secs secs'. induction ms as [|m ms IH]; intros secs secs' Hp Hf; [done|].
  simpl. apply IH.
  - rewrite !add_section_paths, (has_path_same _ _ _ Hp), Hp. done.
  - unfold add_section. rewrite (has_path_same _ _ _ Hp).
    destruct (has_path m.1 secs'); [done|].
    rewrite !filter_app, Hf. f_equal. rewrite !filter_cons, !filter_nil.
    change (file_path (new_section w' m)) with m.1.
    change (file_path (new_section w m)) with m.1.
    case_decide as Hm; [|done]. unfold new_section, defs_of.
    by rewrite (extract_defs_same _ Hm).
Qed.

End OtherFiles.

(** ** The claims *)

(** C1.  In the collection a turn produces no two sections have the same
    [file_path]: the paths of the sections are pairwise distinct, so every
    file path accounts for at most one section. *)
Theorem sections_have_distinct_paths w self request ctx c :
  turn_collection (next_turn w self request ctx) = Some c →
  NoDup (file_path <$> sections c)
  ∧ ∀ path, length (filter (λ sec, file_path sec = path) (sections c)) ≤ 1.
Proof.
  intros (q & ms & _ & _ & ->)%next_turn_inv. cbn [sections].
  assert (NoDup (file_path <$> fold_left (add_section w) ms [])) as Hnd.
  { apply aggregate_NoDup. constructor. }
  split; [done|]. intros path. by apply NoDup_fmap_filter_length.
Qed.

Lemma sections_have_distinct_paths_witness :
  NoDup (file_path <$> [section_a; section_b])
  ∧ ∀ path, length (filter (λ sec, file_path sec = path)
                      [section_a; section_b]) ≤ 1.
Proof.
  apply (sections_have_distinct_paths world_two_matches default_agent
           (Str "f") {[ "query" := "f" ]}
           {| sections := [section_a; section_b]; search_query := "f" |}).
  vm_compute. reflexivity.
Defined.

(** C2 (the code departs from it).  The search reports two lines of [a.py];
    the turn opens and parses [a.py] once for each of them, although the
    second match adds no section. *)
Theorem later_match_extracts_again :
  let turn := next_turn world_two_matches default_agent (Str "f")
                {[ "query" := "f" ]} in
  opens (trace turn) = ["a.py"; "a.py"]
  ∧ parses (trace turn) = ["source of a.py"; "source of a.py"]
  ∧ (λ c, file_path <$> sections c) <$> turn_collection turn
    = Some ["a.py"; "b.txt"].
Proof. vm_compute. done. Qed.

(** C3 as stated fails: with the request ["foo"] and the context query
    ["bar"], a search without matches gives a collection whose
    [search_query] is ["bar"], not the query the turn was given. *)
Lemma search_query_is_not_the_request :
  let ctx : gmap string string := {[ "query" := "bar" ]} in
  outcome (run_git_grep world_no_matches default_agent (ctx !! "query")) = inr []
  ∧ turn_collection (next_turn world_no_matches default_agent (Str "foo") ctx)
    = Some {| sections := []; search_query := "bar" |}
  ∧ "bar" ≠ input_query (Str "foo").
Proof. vm_compute. split_and!; done. Qed.

(** C3, amended.  When the request context holds a query string under
    ["query"] and the search for it yields no matches, the turn returns
    without raising, and its collection has no sections and carries that
    query string as [search_query]. *)
Theorem empty_search_gives_empty_collection w self request ctx q :
  ctx !! "query" = Some q →
  outcome (run_git_grep w self (Some q)) = inr [] →
  outcome (next_turn w self request ctx) = inr ()
  ∧ turn_collection (next_turn w self request ctx)
    = Some {| sections := []; search_query := q |}.
Proof. intros Hq Hms. apply (next_turn_returns w self request ctx q [] Hq Hms). Qed.

Lemma empty_search_gives_empty_collection_witness :
  let ctx : gmap string string := {[ "query" := "bar" ]} in
  outcome (next_turn world_no_matches default_agent (Str "foo") ctx) = inr ()
  ∧ turn_collection (next_turn world_no_matches default_agent (Str "foo") ctx)
    = Some {| sections := []; search_query := "bar" |}.
Proof.
  apply (empty_search_gives_empty_collection world_no_matches default_agent
           (Str "foo") {[ "query" := "bar" ]} "bar");
    vm_compute; reflexivity.
Defined.

(** C4.  When the search reports a match for a file that no earlier match
    names, the turn's collection has a section for that file whose
    [search_result] is the line of this first match; it is the only section
    of the file, and it is the section that stands last once the matches up
    to this one are processed: the matches that follow, of the same file or
    of others, only append to the sections, they change none. *)
Theorem first_match_wins w self request ctx pre path line post :
  outcome (run_git_grep w self (ctx !! "query"))
  = inr (pre ++ (path, line) :: post) →
  path ∉ pre.*1 →
  ∃ c sec,
    turn_collection (next_turn w self request ctx) = Some c
    ∧ sec ∈ sections c ∧ file_path sec = path ∧ search_result sec = line
    ∧ (∀ sec', sec' ∈ sections c → file_path sec' = path → sec' = sec)
    ∧ ∃ c1,
        outcome (for_each (add_match w) (pre ++ [(path, line)])
                   {| sections := []; search_query := search_query c |})
        = inr c1
        ∧ last (sections c1) = Some sec
        ∧ sections c1 `prefix_of` sections c.
Proof.
  intros Hrun Hfirst. destruct (ctx !! "query") as [q|] eqn:Hq.
  2:{ rewrite run_git_grep_no_query in Hrun. by destruct pre. }
  destruct (next_turn_returns w self request ctx q _ Hq Hrun) as [_ Hc].
  eexists _, (new_section w (path, line)). split; [exact Hc|].
  cbn [sections search_query].
  assert (fold_left (add_section w) (pre ++ [(path, line)]) []
          = fold_left (add_section w) pre [] ++ [new_section w (path, line)])
    as Hfst.
  { apply aggregate_first_match; [|done]. by intros ?%elem_of_nil. }
  assert (fold_left (add_section w) (pre ++ [(path, line)]) []
          `prefix_of` fold_left (add_section w) (pre ++ (path, line) :: post) [])
    as Hpre.
  { rewrite (cons_middle _ pre post), app_assoc, (fold_left_app _ (pre ++ _)).
    apply aggregate_prefix. }
  assert (new_section w (path, line)
          ∈ fold_left (add_section w) (pre ++ (path, line) :: post) []) as Hin.
  { destruct Hpre as [tl ->]. rewrite Hfst.
    apply elem_of_app. left. apply elem_of_app. right. by left. }
  split_and!; [done|done|done| |].
  - intros sec' Hin' Hpath.
    apply (NoDup_fmap_agree file_path _ _ _
             (aggregate_NoDup w _ [] (NoDup_nil_2)) Hin' Hin Hpath).
  - eexists. rewrite collect_spec. split; [done|]. cbn [sections].
    split; [|done]. by rewrite Hfst, last_snoc.
Qed.

Lemma first_match_wins_witness :
  ∃ c sec,
    turn_collection
      (next_turn world_two_matches default_agent (Str "f") {[ "query" := "f" ]})
    = Some c
    ∧ sec ∈ sections c ∧ file_path sec = "a.py"
    ∧ search_result sec = "def f(): pass"
    ∧ (∀ sec', sec' ∈ sections c → file_path sec' = "a.py" → sec' = sec)
    ∧ ∃ c1,
        outcome (for_each (add_match world_two_matches)
                   ([] ++ [("a.py", "def f(): pass")])
                   {| sections := []; search_query := search_query c |})
        = inr c1
        ∧ last (sections c1) = Some sec
        ∧ sections c1 `prefix_of` sections c.
Proof.
  apply (first_match_wins world_two_matches default_agent (Str "f")
           {[ "query" := "f" ]} [] "a.py" "def f(): pass"
           [("b.txt", "see f: it"); ("a.py", "f()")]).
  - vm_compute. reflexivity.
  - apply not_elem_of_nil.
Defined.

Lemma included_names_without_async body :
  Forall (λ n, is_async n = false) body →
  included_names body = top_level_definitions body.
Proof.
  induction 1 as [|n body Hn _ IH]; [done|].
  rewrite included_names_cons. destruct n; simpl; by rewrite ?IH.
Qed.

Lemma included_names_drops_async body :
  included_names body
  = top_level_definitions (filter (λ n, is_async n = false) body).
Proof.
  induction body as [|n body IH]; [done|].
  rewrite included_names_cons, filter_cons.
  destruct n; simpl; by rewrite ?IH.
Qed.

(** C5 (the code departs from it).  The module body of [a.py] has the
    top-level definitions [f], [h] and [C], in this order; the extraction
    step returns [f] and [C] only: the function [h], declared with
    [async def], is missing.  (The nested [g] and [m] are left out by both,
    and a path that does not end in [.py] is not opened.) *)
Theorem extraction_misses_async_def :
  PyStr.endswith "a.py" ".py" = true
  ∧ open_read world_two_matches "a.py" = inr "source of a.py"
  ∧ ast_parse world_two_matches "source of a.py" = inr sample_body
  ∧ top_level_definitions sample_body = ["f"; "h"; "C"]
  ∧ outcome (extract_defs world_two_matches "a.py") = inr ["f"; "C"]
  ∧ extract_defs world_two_matches "b.txt" = ([], inr []).
Proof. vm_compute. by split_and!. Qed.

(** C6.  When the search cannot be invoked (no query to pass, the
    subprocess call raises an [Exception], or [git] exits with a nonzero
    status and no output) [run_git_grep] returns the empty list of matches;
    no exception reaches its caller. *)
Theorem failed_search_gives_no_matches w self query :
  invocation_fails w query = true →
  outcome (run_git_grep w self query) = inr [].
Proof.
  destruct query as [q|]; [|done]. unfold invocation_fails.
  destruct (subprocess_run w (grep_args q)) as [e|r] eqn:Hrun.
  - intros He. by rewrite (run_git_grep_caught w self q e Hrun He).
  - intros [_ Hout%String.eqb_eq]%andb_true_iff.
    rewrite (run_git_grep_completed w self q r Hrun), Hout. reflexivity.
Qed.

Lemma failed_search_gives_no_matches_witness :
  outcome (run_git_grep world_no_git default_agent (Some "f")) = inr [].
Proof.
  apply (failed_search_gives_no_matches world_no_git default_agent (Some "f")).
  reflexivity.
Defined.

(** C7.  When the search reports a match in a file whose extraction fails
    (the path does not end in [.py], the file cannot be read, or it does
    not parse), the turn's collection still has a section for that file,
    with empty [included_defs].  The sections of all other files are what
    they are in any world that differs only in the contents of that file,
    in particular in one where its extraction succeeds. *)
Theorem failed_extraction_keeps_section w self request ctx ms path line :
  outcome (run_git_grep w self (ctx !! "query")) = inr ms →
  (path, line) ∈ ms →
  extraction_fails w path = true →
  ∃ c,
    turn_collection (next_turn w self request ctx) = Some c
    ∧ (∃ sec, sec ∈ sections c ∧ file_path sec = path ∧ included_defs sec = [])
    ∧ ∀ w', same_except_file path w w' →
        ∃ c',
          turn_collection (next_turn w' self request ctx) = Some c'
          ∧ filter (λ sec, file_path sec ≠ path) (sections c')
            = filter (λ sec, file_path sec ≠ path) (sections c).
Proof.
  intros Hrun Hin Hfail. destruct (ctx !! "query") as [q|] eqn:Hq.
  2:{ rewrite run_git_grep_no_query in Hrun. injection Hrun as <-.
      by apply elem_of_nil in Hin. }
  destruct (next_turn_returns w self request ctx q _ Hq Hrun) as [_ Hc].
  eexists. split; [exact Hc|]. cbn [sections]. split.
  - assert (path ∈ file_path <$> fold_left (add_section w) ms []) as Hpath.
    { apply aggregate_paths. right.
      apply list_elem_of_fmap. by exists (path, line). }
    apply list_elem_of_fmap in Hpath as (sec & -> & Hsec).
    exists sec. split_and!; [done|done|].
    apply aggregate_provenance in Hsec as [[]%elem_of_nil|(m & _ & ->)].
    by apply extract_defs_failed.
  - intros w' Hsame.
    rewrite <- (run_git_grep_same w w' path Hsame) in Hrun.
    destruct (next_turn_returns w' self request ctx q _ Hq Hrun) as [_ Hc'].
    eexists. split; [exact Hc'|]. cbn [sections].
    by apply aggregate_same.
Qed.

Lemma failed_extraction_keeps_section_witness :
  let ctx : gmap string string := {[ "query" := "def" ]} in
  ∃ c c',
    turn_collection (next_turn world_bad_file default_agent (Str "def") ctx)
    = Some c
    ∧ (∃ sec, sec ∈ sections c ∧ file_path sec = "bad.py"
              ∧ included_defs sec = [])
    ∧ extraction_fails world_repaired_file "bad.py" = false
    ∧ turn_collection
        (next_turn world_repaired_file default_agent (Str "def") ctx)
      = Some c'
    ∧ filter (λ sec, file_path sec ≠ "bad.py") (sections c')
      = filter (λ sec, file_path sec ≠ "bad.py") (sections c).
Proof.
  intros ctx.
  destruct (failed_extraction_keeps_section world_bad_file default_agent
              (Str "def") ctx
              [("bad.py", "def ("); ("a.py", "def f(): pass")] "bad.py" "def (")
    as (c & Hc & Hsec & Hother).
  - vm_compute. reflexivity.
  - left.
  - reflexivity.
  - destruct (Hother world_repaired_file) as (c' & Hc' & Heq).
    + split_and!; [done| |done].
      intros p Hp. simpl. by destruct (String.eqb_spec p "bad.py").
    + by exists c, c'.
Defined.

(** C8.  A line of search output is cut at its first two colons and never
    into more than three parts.  A line [path:number:text] thus contributes
    the match [(path, text)] with [text] intact, whatever colons it
    contains; a line that gives fewer than three parts contributes nothing,
    and the step returns without raising. *)
Theorem scan_line_cuts_at_two_colons matches line :
  length (PyStr.split ":" 2 line) ≤ 3
  ∧ (∀ path number text,
       PyStr.contains ":" path = false → PyStr.contains ":" number = false →
       line = path +:+ ":" +:+ number +:+ ":" +:+ text →
       scan_line matches line = mret (matches ++ [(path, text)]))
  ∧ (length (PyStr.split ":" 2 line) < 3 →
     scan_line matches line = mret matches).
Proof.
  split_and!.
  - apply split_length.
  - intros path number text Hpath Hnumber ->.
    rewrite scan_line_spec. unfold matches_of_line.
    change (path +:+ ":" +:+ number +:+ ":" +:+ text)
      with (path +:+ String ":" (number +:+ String ":" text)).
    by rewrite split_three.
  - intros Hlen. rewrite scan_line_spec. unfold matches_of_line.
    destruct (PyStr.split ":" 2 line) as [|a [|b [|c [|d l]]]];
      simpl in Hlen; rewrite ?app_nil_r; try done; lia.
Qed.

Lemma scan_line_cuts_at_two_colons_witness :
  scan_line [] "b.txt:3:see f: it" = mret [("b.txt", "see f: it")]
  ∧ scan_line [] "Binary file a.out matches" = mret [].
Proof.
  split.
  - apply (proj1 (proj2 (scan_line_cuts_at_two_colons [] "b.txt:3:see f: it"))
             "b.txt" "3" "see f: it"); reflexivity.
  - apply (proj2 (proj2 (scan_line_cuts_at_two_colons []
                           "Binary file a.out matches"))).
    vm_compute. lia.
Defined.

(** C9.  Every section of the collection a turn produces has
    [similarity_score] 1.0. *)
Theorem every_section_scores_one w self request ctx c sec :
  turn_collection (next_turn w self request ctx) = Some c →
  sec ∈ sections c → similarity_score sec = 1%float.
Proof.
  intros (q & ms & _ & _ & ->)%next_turn_inv. cbn [sections].
  intros [[]%elem_of_nil|(m & _ & ->)]%aggregate_provenance. reflexivity.
Qed.

Lemma every_section_scores_one_witness : similarity_score section_b = 1%float.
Proof.
  apply (every_section_scores_one world_two_matches default_agent
           (Str "f") {[ "query" := "f" ]}
           {| sections := [section_a; section_b]; search_query := "f" |}).
  - vm_compute. reflexivity.
  - cbn [sections]. apply elem_of_cons. right. apply elem_of_cons. by left.
Defined.

(** C10.  When a Python file has an [async def] among the statements of
    its module body, the extraction returns the names collected from the
    statements before it followed by those collected from the statements
    after it; the name of the async function is returned only if a plain
    function or a class of the module body bears it too.  This list is the
    [included_defs] of the section a match in the file creates. *)
Theorem async_defs_are_omitted w path source front nm inner back :
  PyStr.endswith path ".py" = true →
  open_read w path = inr source →
  ast_parse w source = inr (front ++ Ast.AsyncFunctionDef nm inner :: back) →
  outcome (extract_defs w path)
  = inr (included_names front ++ included_names back)
  ∧ ((∀ n, n ∈ front ++ back → node_name n = Some nm → is_def n = false) →
     nm ∉ included_names front ++ included_names back)
  ∧ ∀ c line, has_path path (sections c) = false →
      ∃ c', outcome (add_match w c (path, line)) = inr c'
        ∧ included_defs <$> last (sections c')
          = Some (included_names front ++ included_names back).
Proof.
  intros Hpy Hopen Hparse.
  assert (outcome (extract_defs w path)
          = inr (included_names front ++ included_names back)) as Hdefs.
  { rewrite (extract_defs_parsed w path source _ Hpy Hopen Hparse).
    unfold outcome. cbn [snd]. f_equal.
    by rewrite included_names_app, included_names_cons. }
  split_and!; [done| |].
  - intros Hplain. rewrite <- included_names_app.
    intros (inner' & [Hin|Hin])%elem_of_included_names;
      by specialize (Hplain _ Hin eq_refl).
  - intros c line Hnew. rewrite add_match_spec. eexists. split; [done|].
    unfold add_section. cbn [fst sections]. rewrite Hnew, last_snoc.
    unfold new_section, defs_of, returned. cbn [fmap option_fmap option_map fst included_defs].
    by rewrite Hdefs.
Qed.

Lemma async_defs_are_omitted_witness :
  outcome (extract_defs world_two_matches "a.py") = inr ["f"; "C"]
  ∧ "h" ∉ ["f"; "C"].
Proof.
  destruct (async_defs_are_omitted world_two_matches "a.py" "source of a.py"
              [Ast.FunctionDef "f" [Ast.FunctionDef "g" []]; Ast.Simple]
              "h" [] [Ast.ClassDef "C" [Ast.FunctionDef "m" []]]
              eq_refl eq_refl eq_refl) as (Hdefs & Habsent & _).
  split; [exact Hdefs|]. apply Habsent. intros n Hn Hname.
  repeat (apply elem_of_cons in Hn as [->|Hn]; [try done|]).
  by apply elem_of_nil in Hn.
Defined.
(** ** Further properties of the query executor *)

Section MoreStrings.

Implicit Types (s a b : string) (sep c : ascii).

Lemma split_three_inv sep s a b rest :
  PyStr.split sep 2 s = [a; b; rest] →
  s = a +:+ String sep (b +:+ String sep rest)
  ∧ PyStr.contains sep a = false ∧ PyStr.contains sep b = false.
Proof.
  simpl. destruct (PyStr.partition sep s) as [[a' s']|] eqn:H1; [|done].
  destruct (PyStr.partition sep s') as [[b' s'']|] eqn:H2; [|done].
  intros [= -> -> ->].
  apply partition_Some in H1 as [-> ?], H2 as [-> ?]. done.
Qed.

Lemma split_nonempty sep k s : PyStr.split sep k s ≠ [].
Proof.
  destruct k as [|k]; simpl; [done|].
  by destruct (PyStr.partition sep s) as [[??]|].
Qed.

Lemma concat_cons (glue x y : string) (l : list string) :
  String.concat glue (x :: y :: l) = x +:+ glue +:+ String.concat glue (y :: l).
Proof. reflexivity. Qed.

Lemma concat_split sep k s :
  String.concat (String sep "") (PyStr.split sep k s) = s.
Proof.
  revert s. induction k as [|k IH]; intros s; simpl; [done|].
  destruct (PyStr.partition sep s) as [[a b]|] eqn:Hp; [|done].
  apply partition_Some in Hp as [-> _].
  pose proof (split_nonempty sep k b) as Hne. specialize (IH b).
  destruct (PyStr.split sep k b) as [|y l]; [done|].
  by rewrite concat_cons, IH.
Qed.

Lemma has_linebreak_app a b :
  has_linebreak (a +:+ b) = has_linebreak a || has_linebreak b.
Proof.
  induction a as [|c a IH]; [done|].
  rewrite append_cons. simpl. by rewrite IH, orb_assoc.
Qed.

Lemma has_linebreak_rev_app a b :
  has_linebreak (String.rev_app a b) = has_linebreak a || has_linebreak b.
Proof.
  revert b. induction a as [|c a IH]; intros b; simpl; [done|].
  rewrite IH. simpl. by destruct (PyStr.is_linebreak c), (has_linebreak a).
Qed.

Lemma has_linebreak_rev a : has_linebreak (String.rev a) = has_linebreak a.
Proof. unfold String.rev. by rewrite has_linebreak_rev_app, orb_false_r. Qed.

Lemma splitlines_go_no_linebreak n s cur line :
  String.length s ≤ n → has_linebreak cur = false →
  line ∈ PyStr.splitlines_go cur s → has_linebreak line = false.
Proof.
  revert s cur. induction n as [|n IH]; intros s cur Hn Hcur.
  - destruct s; [|simpl in Hn; lia]. simpl.
    destruct cur; [by intros ?%elem_of_nil|].
    intros ->%list_elem_of_singleton. by rewrite has_linebreak_rev.
  - destruct s as [|c s]; simpl.
    { destruct cur; [by intros ?%elem_of_nil|].
      intros ->%list_elem_of_singleton. by rewrite has_linebreak_rev. }
    simpl in Hn. destruct (PyStr.is_linebreak c) eqn:Hc.
    + assert (∀ s', String.length s' ≤ n →
                line ∈ String.rev cur :: PyStr.splitlines_go "" s' →
                has_linebreak line = false) as Hstep.
      { intros s' Hs' [->|Hin]%elem_of_cons.
        - by rewrite has_linebreak_rev.
        - by apply (IH s' ""). }
      destruct s as [|c' s'']; [apply Hstep; simpl; lia|].
      simpl in Hn.
      destruct (Ascii.eqb c PyStr.CR && Ascii.eqb c' PyStr.LF);
        apply Hstep; simpl; lia.
    + apply IH; [lia|]. simpl. by rewrite Hc.
Qed.

Lemma splitlines_no_linebreak s line :
  line ∈ PyStr.splitlines s → has_linebreak line = false.
Proof. by apply (splitlines_go_no_linebreak (String.length s)). Qed.

Lemma elem_of_matches_of_line line path text :
  (path, text) ∈ matches_of_line line
  ↔ ∃ number,
      PyStr.contains ":" path = false ∧ PyStr.contains ":" number = false
      ∧ line = path +:+ ":" +:+ number +:+ ":" +:+ text.
Proof.
  unfold matches_of_line. split.
  - destruct (PyStr.split ":" 2 line) as [|a [|b [|c [|d l]]]] eqn:Hs;
      try by intros ?%elem_of_nil.
    intros [= -> ->]%list_elem_of_singleton.
    apply split_three_inv in Hs as (-> & ? & ?). by exists b.
  - intros (number & Hp & Hn & ->).
    change (path +:+ ":" +:+ number +:+ ":" +:+ text)
      with (path +:+ String ":" (number +:+ String ":" text)).
    rewrite split_three by done. by left.
Qed.

End MoreStrings.

Lemma run_git_grep_inv w self query ms :
  outcome (run_git_grep w self query) = inr ms →
  ms = []
  ∨ ∃ q r, query = Some q ∧ subprocess_run w (grep_args q) = inr r
           ∧ ms = PyStr.splitlines (stdout r) ≫= matches_of_line.
Proof.
  destruct query as [q|]; [|intros [= <-]; by left].
  destruct (subprocess_run w (grep_args q)) as [e|r] eqn:Hrun.
  - destruct (is_Exception e) eqn:He.
    + rewrite (run_git_grep_caught w self q e Hrun He). intros [= <-]. by left.
    + by rewrite (run_git_grep_uncaught w self q e Hrun He).
  - rewrite (run_git_grep_completed w self q r Hrun). intros [= <-].
    right. by exists q, r.
Qed.

Lemma run_git_grep_runs w self query :
  runs (trace (run_git_grep w self query))
  = match query with Some q => [["git"; "grep"; "-n"; q]] | None => [] end.
Proof.
  destruct query as [q|]; [|done].
  destruct (subprocess_run w (grep_args q)) as [e|r] eqn:Hrun.
  - destruct (is_Exception e) eqn:He.
    + by rewrite (run_git_grep_caught w self q e Hrun He).
    + by rewrite (run_git_grep_uncaught w self q e Hrun He).
  - by rewrite (run_git_grep_completed w self q r Hrun).
Qed.

(** X1.  When the subprocess completes, whatever its exit status, the
    matches [run_git_grep] returns are exactly the pairs [(path, text)] for
    which a line [path:number:text] with colon-free [path] and [number]
    occurs in the standard output. *)
Theorem run_git_grep_matches_lines w self q r :
  subprocess_run w (grep_args q) = inr r →
  ∃ ms,
    outcome (run_git_grep w self (Some q)) = inr ms
    ∧ ∀ path text,
        (path, text) ∈ ms
        ↔ ∃ line number,
            line ∈ PyStr.splitlines (stdout r)
            ∧ PyStr.contains ":" path = false
            ∧ PyStr.contains ":" number = false
            ∧ line = path +:+ ":" +:+ number +:+ ":" +:+ text.
Proof.
  intros Hrun. eexists. rewrite (run_git_grep_completed w self q r Hrun).
  split; [done|]. intros path text. rewrite list_elem_of_bind. split.
  - intros (line & (number & ?)%elem_of_matches_of_line & Hline).
    by exists line, number.
  - intros (line & number & Hline & H). exists line. split; [|done].
    apply elem_of_matches_of_line. by exists number.
Qed.

Lemma run_git_grep_matches_lines_witness :
  ∃ ms,
    outcome (run_git_grep world_two_matches default_agent (Some "f")) = inr ms
    ∧ ∀ path text,
        (path, text) ∈ ms
        ↔ ∃ line number,
            line ∈ PyStr.splitlines
                     ("a.py:1:def f(): pass" +:+ nl +:+
                      "b.txt:3:see f: it" +:+ nl +:+ "a.py:2:f()" +:+ nl)
            ∧ PyStr.contains ":" path = false
            ∧ PyStr.contains ":" number = false
            ∧ line = path +:+ ":" +:+ number +:+ ":" +:+ text.
Proof.
  apply (run_git_grep_matches_lines world_two_matches default_agent "f"
           {| returncode := 0;
              stdout := "a.py:1:def f(): pass" +:+ nl +:+
                        "b.txt:3:see f: it" +:+ nl +:+ "a.py:2:f()" +:+ nl;
              stderr := "" |}).
  reflexivity.
Defined.

(** X2.  An exception that leaves [run_git_grep] is no [Exception]: only
    exceptions outside that class, such as [KeyboardInterrupt], pass its
    handler. *)
Theorem run_git_grep_passes_no_Exception w self query e :
  outcome (run_git_grep w self query) = inl e → is_Exception e = false.
Proof. apply run_git_grep_raises. Qed.

Lemma run_git_grep_passes_no_Exception_witness :
  is_Exception KeyboardInterrupt = false.
Proof.
  apply (run_git_grep_passes_no_Exception world_interrupted default_agent
           (Some "f")).
  reflexivity.
Defined.

(** X3.  [run_git_grep] prints a diagnostic at most once, only for an
    [Exception] it caught, and then it returns no matches. *)
Theorem run_git_grep_diagnostic w self query e :
  e ∈ prints (trace (run_git_grep w self query)) →
  is_Exception e = true
  ∧ prints (trace (run_git_grep w self query)) = [e]
  ∧ outcome (run_git_grep w self query) = inr [].
Proof.
  destruct query as [q|].
  - destruct (subprocess_run w (grep_args q)) as [e'|r] eqn:Hrun.
    + destruct (is_Exception e') eqn:He.
      * rewrite (run_git_grep_caught w self q e' Hrun He).
        by intros ->%list_elem_of_singleton.
      * rewrite (run_git_grep_uncaught w self q e' Hrun He).
        by intros ?%elem_of_nil.
    + rewrite (run_git_grep_completed w self q r Hrun).
      by intros ?%elem_of_nil.
  - rewrite run_git_grep_no_query. by intros ->%list_elem_of_singleton.
Qed.

Lemma run_git_grep_diagnostic_witness :
  is_Exception FileNotFoundError = true
  ∧ prints (trace (run_git_grep world_no_git default_agent (Some "f")))
    = [FileNotFoundError]
  ∧ outcome (run_git_grep world_no_git default_agent (Some "f")) = inr [].
Proof.
  apply (run_git_grep_diagnostic world_no_git default_agent (Some "f")).
  vm_compute. left.
Defined.

(** X4.  For a query string, [run_git_grep] calls [subprocess.run] exactly
    once, and the argument list of that call is [git], [grep], [-n] and the
    query as one argument, whether the call then returns or raises. *)
Theorem run_git_grep_runs_once w self q :
  runs (trace (run_git_grep w self (Some q))) = [["git"; "grep"; "-n"; q]].
Proof. apply (run_git_grep_runs w self (Some q)). Qed.

(** X5.  The split of a line loses nothing: the parts of
    [s.split(sep, maxsplit)], joined by [sep], are [s] again. *)
Theorem split_join_round_trip sep maxsplit s :
  String.concat (String sep "") (PyStr.split sep maxsplit s) = s.
Proof. apply concat_split. Qed.

(** X6.  In every match [run_git_grep] returns, the path holds no colon and
    neither the path nor the text holds a line boundary. *)
Theorem run_git_grep_matches_are_clean w self query ms path text :
  outcome (run_git_grep w self query) = inr ms →
  (path, text) ∈ ms →
  PyStr.contains ":" path = false
  ∧ has_linebreak path = false ∧ has_linebreak text = false.
Proof.
  intros [->|(q & r & _ & _ & ->)]%run_git_grep_inv; [by intros ?%elem_of_nil|].
  intros (line & (number & Hp & _ & ->)%elem_of_matches_of_line & Hline)
    %list_elem_of_bind.
  apply splitlines_no_linebreak in Hline.
  rewrite !has_linebreak_app in Hline.
  apply orb_false_iff in Hline as [? Hline].
  apply orb_false_iff in Hline as [_ Hline].
  apply orb_false_iff in Hline as [_ Hline].
  apply orb_false_iff in Hline as [_ ?]. done.
Qed.

Lemma run_git_grep_matches_are_clean_witness :
  PyStr.contains ":" "b.txt" = false
  ∧ has_linebreak "b.txt" = false ∧ has_linebreak "see f: it" = false.
Proof.
  apply (run_git_grep_matches_are_clean world_two_matches default_agent
           (Some "f")
           [("a.py", "def f(): pass"); ("b.txt", "see f: it"); ("a.py", "f()")]).
  - reflexivity.
  - right. left.
Defined.

(** ** Further properties of a turn *)

Lemma dedup_first_filter (P : string → Prop) `{∀ x, Decision (P x)} l :
  dedup_first (filter P l) = filter P (dedup_first l).
Proof.
  induction l as [|x l IH]; [done|]. simpl. rewrite !filter_cons.
  case_decide as Hx; simpl.
  - rewrite IH, !list_filter_filter. f_equal.
    apply list_filter_iff. intros y. tauto.
  - rewrite IH, list_filter_filter. apply list_filter_iff.
    intros y. split; [|tauto]. intros Hy. split; [done|]. by intros ->.
Qed.

Lemma aggregate_paths_order w ms secs :
  file_path <$> fold_left (add_section w) ms secs
  = (file_path <$> secs)
    ++ dedup_first (filter (λ p, p ∉ file_path <$> secs) ms.*1).
Proof.
  revert secs. induction ms as [|m ms IH]; intros secs.
  - simpl. by rewrite app_nil_r.
  - cbn [fold_left]. rewrite IH, add_section_paths, fmap_cons, filter_cons.
    destruct (has_path m.1 secs) eqn:Hin.
    + apply has_path_spec in Hin. by case_decide.
    + apply has_path_false in Hin. case_decide; [|done].
      rewrite <- app_assoc. f_equal. simpl. f_equal.
      rewrite <- dedup_first_filter, list_filter_filter. f_equal.
      apply list_filter_iff. intros p.
      rewrite elem_of_app, list_elem_of_singleton. tauto.
Qed.

Lemma aggregate_seen w ms secs :
  (∀ m, m ∈ ms → m.1 ∈ file_path <$> secs) →
  fold_left (add_section w) ms secs = secs.
Proof.
  induction ms as [|m ms IH]; intros Hseen; [done|]. simpl.
  assert (add_section w secs m = secs) as ->.
  { unfold add_section.
    by rewrite (proj2 (has_path_spec m.1 secs) (Hseen m ltac:(left))). }
  apply IH. intros m' ?. apply Hseen. by right.
Qed.

Lemma run_git_grep_trace_kinds w self query :
  opens (trace (run_git_grep w self query)) = []
  ∧ yields (trace (run_git_grep w self query)) = [].
Proof.
  destruct query as [q|]; [|done].
  destruct (subprocess_run w (grep_args q)) as [e|r] eqn:Hrun.
  - destruct (is_Exception e) eqn:He.
    + by rewrite (run_git_grep_caught w self q e Hrun He).
    + by rewrite (run_git_grep_uncaught w self q e Hrun He).
  - by rewrite (run_git_grep_completed w self q r Hrun).
Qed.

Lemma extract_defs_trace_kinds w path :
  runs (trace (extract_defs w path)) = []
  ∧ yields (trace (extract_defs w path)) = [].
Proof.
  unfold extract_defs. destruct (PyStr.endswith path ".py"); [|done].
  simpl. destruct (open_read w path) as [?|source]; simpl; [done|].
  by destruct (ast_parse w source).
Qed.

Lemma extract_traces_kinds w (ms : list (string * string)) :
  runs (ms ≫= λ m, trace (extract_defs w m.1)) = []
  ∧ yields (ms ≫= λ m, trace (extract_defs w m.1)) = [].
Proof.
  induction ms as [|m ms [IH1 IH2]]; [done|].
  destruct (extract_defs_trace_kinds w m.1) as [H1 H2].
  rewrite bind_cons. unfold runs, yields in *.
  by rewrite !omap_app, IH1, IH2, H1, H2.
Qed.

Lemma next_turn_trace w self request ctx q ms :
  ctx !! "query" = Some q →
  outcome (run_git_grep w self (Some q)) = inr ms →
  next_turn w self request ctx
  = ([EvYield (PromptStarted (input_query request)
                 {[ "query" := input_query request ]})]
     ++ trace (run_git_grep w self (Some q))
     ++ (ms ≫= λ m, trace (extract_defs w m.1))
     ++ [EvYield (TurnEnd (name self)
           [ {[ "content" :=
                {| sections := fold_left (add_section w) ms [];
                   search_query := q |} ]} ])],
     inr ()).
Proof.
  intros Hq Hms. unfold next_turn, tell, CodeSections_init. rewrite Hq.
  rewrite bind_inr, (M_eta (run_git_grep w self (Some q))), Hms.
  rewrite bind_inr, bind_mret, collect_spec, bind_inr.
  unfold trace, outcome. cbn [fst snd sections search_query].
  by destruct request.
Qed.

Lemma filter_not_elem_of_nil (ps : list string) :
  filter (λ p : string, p ∉ ([] : list string)) ps = ps.
Proof.
  induction ps as [|x ps IH]; [done|]. rewrite filter_cons, IH.
  case_decide as Hx; [done|]. by apply elem_of_nil in Hx.
Qed.

(** X8.  A turn whose request context has no ["query"] entry yields
    [PromptStarted], starts no subprocess, prints the [TypeError] of the
    search without a query, and raises [ValidationError]; it yields no
    [TurnEnd]. *)
Theorem next_turn_without_query w self request ctx :
  ctx !! "query" = None →
  next_turn w self request ctx
  = ([EvYield (PromptStarted (input_query request)
                 {[ "query" := input_query request ]});
      EvPrint "Error running git grep: " TypeError],
     inl ValidationError).
Proof. intros Hq. unfold next_turn. rewrite Hq. by destruct request. Qed.

Lemma next_turn_without_query_witness :
  next_turn world_two_matches default_agent (Str "f") ∅
  = ([EvYield (PromptStarted "f" {[ "query" := "f" ]});
      EvPrint "Error running git grep: " TypeError],
     inl ValidationError).
Proof.
  apply (next_turn_without_query world_two_matches default_agent (Str "f") ∅).
  reflexivity.
Defined.

(** X9.  A turn raises in two cases only: the request context has no
    ["query"] entry and the turn raises [ValidationError], or the search
    itself lets an exception through, which then is no [Exception].  No
    failure to read or parse a file makes a turn raise. *)
Theorem next_turn_raises_only w self request ctx e :
  outcome (next_turn w self request ctx) = inl e →
  (ctx !! "query" = None ∧ e = ValidationError)
  ∨ ∃ q, ctx !! "query" = Some q
         ∧ outcome (run_git_grep w self (Some q)) = inl e
         ∧ is_Exception e = false.
Proof.
  destruct (ctx !! "query") as [q|] eqn:Hq.
  - destruct (outcome (run_git_grep w self (Some q))) as [e'|ms] eqn:Hms.
    + unfold next_turn, tell. rewrite Hq.
      rewrite bind_inr, (M_eta (run_git_grep w self (Some q))), Hms.
      rewrite bind_inl. intros [= <-]. right. exists q.
      split_and!; [done..|]. by apply (run_git_grep_raises w self (Some q)).
    + by rewrite (next_turn_trace w self request ctx q ms Hq Hms).
  - unfold next_turn. rewrite Hq. destruct request; intros [= <-]; by left.
Qed.

Lemma next_turn_raises_only_witness :
  let ctx : gmap string string := {[ "query" := "f" ]} in
  (ctx !! "query" = None ∧ KeyboardInterrupt = ValidationError)
  ∨ ∃ q, ctx !! "query" = Some q
         ∧ outcome (run_git_grep world_interrupted default_agent (Some q))
           = inl KeyboardInterrupt
         ∧ is_Exception KeyboardInterrupt = false.
Proof.
  apply (next_turn_raises_only world_interrupted default_agent (Str "f")
           {[ "query" := "f" ]} KeyboardInterrupt).
  vm_compute. reflexivity.
Defined.

(** X10.  The [search_query] of the collection a turn produces is the
    ["query"] entry of the request context, and the one subprocess the turn
    started was [git grep -n] on that string. *)
Theorem turn_searches_context_query w self request ctx c :
  turn_collection (next_turn w self request ctx) = Some c →
  ctx !! "query" = Some (search_query c)
  ∧ runs (trace (next_turn w self request ctx))
    = [["git"; "grep"; "-n"; search_query c]].
Proof.
  intros (q & ms & Hq & Hms & ->)%next_turn_inv. split; [done|].
  rewrite (next_turn_trace w self request ctx q ms Hq Hms).
  unfold trace at 1. cbn [fst search_query]. unfold runs.
  rewrite !omap_app. fold (runs (trace (run_git_grep w self (Some q)))).
  fold (runs (ms ≫= λ m, trace (extract_defs w m.1))).
  rewrite (run_git_grep_runs w self (Some q)).
  by rewrite (proj1 (extract_traces_kinds w ms)).
Qed.

Lemma turn_searches_context_query_witness :
  let ctx : gmap string string := {[ "query" := "bar" ]} in
  ctx !! "query" = Some "bar"
  ∧ runs (trace (next_turn world_no_matches default_agent (Str "foo") ctx))
    = [["git"; "grep"; "-n"; "bar"]].
Proof.
  apply (turn_searches_context_query world_no_matches default_agent
           (Str "foo") {[ "query" := "bar" ]}
           {| sections := []; search_query := "bar" |}).
  vm_compute. reflexivity.
Defined.

(** X11.  The sections of a turn's collection stand in the order in which
    their files first occur among the matches of the search: their paths are
    the paths of the matches with every repetition after the first
    removed. *)
Theorem sections_in_first_occurrence_order w self request ctx c :
  turn_collection (next_turn w self request ctx) = Some c →
  ∃ ms,
    outcome (run_git_grep w self (ctx !! "query")) = inr ms
    ∧ file_path <$> sections c = dedup_first ms.*1.
Proof.
  intros (q & ms & Hq & Hms & ->)%next_turn_inv. exists ms.
  rewrite Hq. split; [done|]. cbn [sections].
  rewrite aggregate_paths_order. simpl. f_equal.
  apply filter_not_elem_of_nil.
Qed.

Lemma sections_in_first_occurrence_order_witness :
  ∃ ms,
    outcome (run_git_grep world_two_matches default_agent
               (({[ "query" := "f" ]} : gmap string string) !! "query"))
    = inr ms
    ∧ file_path <$> [section_a; section_b] = dedup_first ms.*1.
Proof.
  apply (sections_in_first_occurrence_order world_two_matches default_agent
           (Str "f") {[ "query" := "f" ]}
           {| sections := [section_a; section_b]; search_query := "f" |}).
  vm_compute. reflexivity.
Defined.

(** X12.  Every section of a turn's collection stems from a match of the
    search: its [file_path] and [search_result] are the path and the text of
    one match, and its [included_defs] is what the extraction returns for
    that path, whatever the matched line. *)
Theorem sections_stem_from_matches w self request ctx c sec :
  turn_collection (next_turn w self request ctx) = Some c →
  sec ∈ sections c →
  ∃ ms,
    outcome (run_git_grep w self (ctx !! "query")) = inr ms
    ∧ (file_path sec, search_result sec) ∈ ms
    ∧ outcome (extract_defs w (file_path sec)) = inr (included_defs sec).
Proof.
  intros (q & ms & Hq & Hms & ->)%next_turn_inv Hsec. exists ms.
  rewrite Hq. split; [done|]. cbn [sections] in Hsec.
  apply aggregate_provenance in Hsec as [[]%elem_of_nil|([p t] & Hm & ->)].
  split; [done|]. apply extract_defs_returns.
Qed.

Lemma sections_stem_from_matches_witness :
  ∃ ms,
    outcome (run_git_grep world_two_matches default_agent
               (({[ "query" := "f" ]} : gmap string string) !! "query"))
    = inr ms
    ∧ (file_path section_a, search_result section_a) ∈ ms
    ∧ outcome (extract_defs world_two_matches (file_path section_a))
      = inr (included_defs section_a).
Proof.
  apply (sections_stem_from_matches world_two_matches default_agent
           (Str "f") {[ "query" := "f" ]}
           {| sections := [section_a; section_b]; search_query := "f" |}).
  - vm_compute. reflexivity.
  - left.
Defined.

(** X13.  A turn that produces a collection opens exactly the paths of the
    matches that end in [.py], in the order of the matches and once for
    every match, repeated paths included; it opens no other file. *)
Theorem turn_opens_python_matches w self request ctx c :
  turn_collection (next_turn w self request ctx) = Some c →
  ∃ ms,
    outcome (run_git_grep w self (ctx !! "query")) = inr ms
    ∧ opens (trace (next_turn w self request ctx))
      = filter (λ p, PyStr.endswith p ".py" = true) ms.*1.
Proof.
  intros (q & ms & Hq & Hms & ->)%next_turn_inv. exists ms.
  rewrite Hq. split; [done|].
  rewrite (next_turn_trace w self request ctx q ms Hq Hms).
  unfold trace at 1. cbn [fst]. rewrite !opens_app.
  rewrite (proj1 (run_git_grep_trace_kinds w self (Some q))).
  rewrite <- (collect_opens w ms {| sections := []; search_query := q |}).
  rewrite collect_spec. unfold trace at 2. cbn [fst]. simpl.
  by rewrite app_nil_r.
Qed.

Lemma turn_opens_python_matches_witness :
  ∃ ms,
    outcome (run_git_grep world_two_matches default_agent
               (({[ "query" := "f" ]} : gmap string string) !! "query"))
    = inr ms
    ∧ opens (trace (next_turn world_two_matches default_agent (Str "f")
                      {[ "query" := "f" ]}))
      = filter (λ p, PyStr.endswith p ".py" = true) ms.*1.
Proof.
  apply (turn_opens_python_matches world_two_matches default_agent
           (Str "f") {[ "query" := "f" ]}
           {| sections := [section_a; section_b]; search_query := "f" |}).
  vm_compute. reflexivity.
Defined.

(** X14.  Matches of files that are already among the sections, or among
    the matches processed before them, leave the collection as it is: the
    loop returns the same collection with or without them. *)
Theorem seen_files_add_nothing w ms ms' c :
  (∀ m, m ∈ ms' → m.1 ∈ ms.*1 ∨ m.1 ∈ file_path <$> sections c) →
  outcome (for_each (add_match w) (ms ++ ms') c)
  = outcome (for_each (add_match w) ms c).
Proof.
  intros Hseen. rewrite !collect_spec. unfold outcome. cbn [snd].
  rewrite fold_left_app, aggregate_seen; [done|].
  intros m Hm. apply aggregate_paths. destruct (Hseen m Hm); tauto.
Qed.

Lemma seen_files_add_nothing_witness :
  outcome (for_each (add_match world_two_matches)
             ([("a.py", "def f(): pass")] ++ [("a.py", "f()")])
             {| sections := []; search_query := "f" |})
  = outcome (for_each (add_match world_two_matches)
               [("a.py", "def f(): pass")]
               {| sections := []; search_query := "f" |}).
Proof.
  apply (seen_files_add_nothing world_two_matches).
  intros m ->%list_elem_of_singleton. left. left.
Defined.

(** X15.  A turn that produces a collection yields exactly two events:
    [PromptStarted] with the request's query, and [TurnEnd] with the agent's
    name and the collection as the ["content"] of its single message. *)
Theorem turn_yields_two_events w self request ctx c :
  turn_collection (next_turn w self request ctx) = Some c →
  yields (trace (next_turn w self request ctx))
  = [PromptStarted (input_query request) {[ "query" := input_query request ]};
     TurnEnd (name self) [ {[ "content" := c ]} ]].
Proof.
  intros (q & ms & Hq & Hms & ->)%next_turn_inv.
  rewrite (next_turn_trace w self request ctx q ms Hq Hms).
  unfold trace at 1. cbn [fst]. unfold yields. rewrite !omap_app.
  fold (yields (trace (run_git_grep w self (Some q)))).
  fold (yields (ms ≫= λ m, trace (extract_defs w m.1))).
  rewrite (proj2 (run_git_grep_trace_kinds w self (Some q))).
  by rewrite (proj2 (extract_traces_kinds w ms)).
Qed.

Lemma turn_yields_two_events_witness :
  yields (trace (next_turn world_two_matches default_agent (Str "f")
                   {[ "query" := "f" ]}))
  = [PromptStarted (input_query (Str "f")) {[ "query" := input_query (Str "f") ]};
     TurnEnd (name default_agent)
       [ {[ "content" :=
            {| sections := [section_a; section_b]; search_query := "f" |} ]} ]].
Proof.
  apply (turn_yields_two_events world_two_matches default_agent (Str "f")
           {[ "query" := "f" ]}
           {| sections := [section_a; section_b]; search_query := "f" |}).
  vm_compute. reflexivity.
Defined.

(** X16.  The extraction step opens a file exactly when its path is some
    string followed by [.py], the bare name [.py] included; for every other
    path it touches neither the file system nor the parser. *)
Theorem extraction_opens_python_paths w path :
  ((∃ front, path = front +:+ ".py") →
   opens (trace (extract_defs w path)) = [path])
  ∧ ((¬ ∃ front, path = front +:+ ".py") →
     trace (extract_defs w path) = []).
Proof.
  split.
  - intros Hpy%endswith_spec. by rewrite extract_defs_opens, Hpy.
  - intros Hno. rewrite extract_defs_unsupported; [done|].
    destruct (PyStr.endswith path ".py") eqn:Hpy; [|done].
    by apply endswith_spec in Hpy.
Qed.

Lemma extraction_opens_python_paths_witness :
  opens (trace (extract_defs world_two_matches ".py")) = [".py"]
  ∧ trace (extract_defs world_two_matches "a.PY") = [].
Proof.
  split.
  - apply (proj1 (extraction_opens_python_paths world_two_matches ".py")).
    by exists "".
  - apply (proj2 (extraction_opens_python_paths world_two_matches "a.PY")).
    intros Hpy%endswith_spec. discriminate Hpy.
Defined.
